(** * cuspatial/detail/utility/traits.hpp

    A shallow embedding of the compile-time predicates and type projections
    of [cuspatial::detail], together with the fragment of the C++17 type
    system and of <type_traits> / <iterator> they are written against.

    A template instantiation is a total function of its template arguments,
    so a [constexpr bool] function template over a parameter pack becomes a
    [bool]-valued function of a reference type and a [list] of types, and an
    alias template becomes a partial function on types: [None] stands for a
    substitution failure, the only way these facilities can go wrong. *)

From stdpp Require Import base decidable option list strings.
From Stdlib Require Import NArith.

Local Open Scope string_scope.

(** ** C++ types *)

(** cv-qualification, [basic.type.qualifier]. *)
Record cv_qualifier := CV { cv_const : bool; cv_volatile : bool }.

Definition unqualified : cv_qualifier := CV false false.
Definition const : cv_qualifier := CV true false.
Definition volatile : cv_qualifier := CV false true.
Definition const_volatile : cv_qualifier := CV true true.

(** Fundamental types of C++17, [basic.fundamental]. *)
Inductive fundamental :=
  | Void | NullptrT
  | Bool | Char | SignedChar | UnsignedChar | WcharT | Char16T | Char32T
  | Short | UnsignedShort | Int | UnsignedInt | Long | UnsignedLong
  | LongLong | UnsignedLongLong
  | Float | Double | LongDouble.

(** The three kinds of type a program can declare by name. *)
Inductive named_kind := ClassKind | UnionKind | EnumKind.

(** Types are kept in canonical form, so that two terms are equal exactly
    when they denote the same type: typedef names are expanded, references
    carry no qualifier of their own, and the qualification of an array is
    that of its element type.  A named type is given by its full type-id,
    template arguments included (for instance ["cuspatial::vec_2d<double>"]). *)
Inductive cpp_type :=
  | Fundamental (q : cv_qualifier) (f : fundamental)
  | Pointer (q : cv_qualifier) (pointee : cpp_type)
  | LvalueReference (referred : cpp_type)
  | RvalueReference (referred : cpp_type)
  | ArrayOf (element : cpp_type) (bound : option N)
  | Named (q : cv_qualifier) (k : named_kind) (name : string).

#[global] Instance cv_qualifier_eq_dec : EqDecision cv_qualifier.
Proof. solve_decision. Defined.
#[global] Instance fundamental_eq_dec : EqDecision fundamental.
Proof. solve_decision. Defined.
#[global] Instance named_kind_eq_dec : EqDecision named_kind.
Proof. solve_decision. Defined.
#[global] Instance cpp_type_eq_dec : EqDecision cpp_type.
Proof. solve_decision. Defined.

(** [std::remove_const_t<T>]; the qualification of an array is that of its
    elements and a reference is never qualified, [basic.type.qualifier]. *)
Fixpoint remove_const (T : cpp_type) : cpp_type :=
  match T with
  | Fundamental q f => Fundamental (CV false (cv_volatile q)) f
  | Pointer q p => Pointer (CV false (cv_volatile q)) p
  | Named q k n => Named (CV false (cv_volatile q)) k n
  | ArrayOf e b => ArrayOf (remove_const e) b
  | LvalueReference _ | RvalueReference _ => T
  end.

(** What the environment of an instantiation contributes: the sizes the
    implementation gives to types, its implicit-conversion relation, and the
    declarations of the program. *)
Record environment := Environment {
  (** number of bits in the object representation, implementation-defined *)
  width : cpp_type -> N;
  (** [convertible From To]: whether [To test() { return declval<From>(); }]
      is well-formed, that is whether [From] converts implicitly to [To]
      ([conv], [meta.rel]) *)
  convertible : cpp_type -> cpp_type -> bool;
  (** [member_type C n]: the type a class named [C] declares as its public
      member type [n] *)
  member_type : string -> string -> option cpp_type;
  (** the [value_type] of a program-defined specialization of
      [std::iterator_traits], when the program declares one for the type:
      [Some None] is a specialization without that member *)
  traits_specialization : cpp_type -> option (option cpp_type)
}.

(** Qualified lookup of a nested type name, [typename T::n]: well-formed only
    for a class or union type that declares the member. *)
Definition nested_type (E : environment) (T : cpp_type) (n : string)
  : option cpp_type :=
  match T with
  | Named _ (ClassKind | UnionKind) C => member_type E C n
  | _ => None
  end.

(** ** The standard library facilities the header uses *)
Module std.

(** [std::is_same<T, U>::value], [meta.rel]: the very same type, with the
    same cv-qualification. *)
Definition is_same (T U : cpp_type) : bool := bool_decide (T = U).

(** [std::is_convertible<From, To>::value], [meta.rel]. *)
Definition is_convertible (E : environment) (From To : cpp_type) : bool :=
  convertible E From To.

(** Primary type categories, [meta.unary.cat]: every type belongs to
    exactly one of them, cv-qualification playing no role. *)
Inductive category :=
  | VoidCat | NullPointerCat | IntegralCat | FloatingPointCat
  | ArrayCat | PointerCat | LvalueReferenceCat | RvalueReferenceCat
  | EnumCat | UnionCat | ClassCat.

#[global] Instance category_eq_dec : EqDecision category.
Proof. solve_decision. Defined.

Definition fundamental_category (f : fundamental) : category :=
  match f with
  | Void => VoidCat
  | NullptrT => NullPointerCat
  | Float | Double | LongDouble => FloatingPointCat
  | Bool | Char | SignedChar | UnsignedChar | WcharT | Char16T | Char32T
  | Short | UnsignedShort | Int | UnsignedInt | Long | UnsignedLong
  | LongLong | UnsignedLongLong => IntegralCat
  end.

Definition primary_category (T : cpp_type) : category :=
  match T with
  | Fundamental _ f => fundamental_category f
  | Pointer _ _ => PointerCat
  | LvalueReference _ => LvalueReferenceCat
  | RvalueReference _ => RvalueReferenceCat
  | ArrayOf _ _ => ArrayCat
  | Named _ ClassKind _ => ClassCat
  | Named _ UnionKind _ => UnionCat
  | Named _ EnumKind _ => EnumCat
  end.

(** [std::is_floating_point<T>::value]: [float], [double], [long double]
    and their cv-qualified versions. *)
Definition is_floating_point (T : cpp_type) : bool :=
  bool_decide (primary_category T = FloatingPointCat).

(** [std::is_integral<T>::value]: [bool], the character types, the signed
    and unsigned integer types, and their cv-qualified versions. *)
Definition is_integral (T : cpp_type) : bool :=
  bool_decide (primary_category T = IntegralCat).

(** [std::conjunction_v<B...>], [meta.logical]: [true] for an empty pack,
    [B1] for a pack of one, and otherwise
    [conditional_t<bool(B1::value), conjunction<B2, ..., BN>, B1>]. *)
Fixpoint conjunction_v (B : list bool) : bool :=
  match B with
  | [] => true
  | B1 :: Bn =>
      match Bn with
      | [] => B1
      | _ :: _ => if B1 then conjunction_v Bn else B1
      end
  end.

(** The member types [std::iterator_traits] looks for, [iterator.traits]. *)
Definition iterator_member_types : list string :=
  ["difference_type"; "value_type"; "pointer"; "reference"; "iterator_category"].

(** [std::is_object<T>::value], [meta.unary.comp]: every type but [void]
    and the reference types. *)
Definition is_object (T : cpp_type) : bool :=
  match primary_category T with
  | VoidCat | LvalueReferenceCat | RvalueReferenceCat => false
  | _ => true
  end.

(** [typename std::iterator_traits<Iterator>::value_type] in C++17,
    [iterator.traits].  A specialization declared by the program is the most
    specialized candidate; then come the partial specializations of the
    library for [T*] and [const T*], whose [value_type] is [T] in both cases
    and whose member [reference] is [T&], so that instantiating them is
    ill-formed unless the pointee is an object type: [void*] has no element
    type.  The primary template has the members of [Iterator] when
    [Iterator] has all five, and no member at all otherwise. *)
Definition iterator_traits_value_type (E : environment) (Iterator : cpp_type)
  : option cpp_type :=
  match traits_specialization E Iterator with
  | Some value_type => value_type
  | None =>
      match Iterator with
      | Pointer (CV false false) T =>
          if is_object T then Some (remove_const T) else None
      | _ =>
          if forallb (fun n => bool_decide (is_Some (nested_type E Iterator n)))
                     iterator_member_types
          then nested_type E Iterator "value_type"
          else None
      end
  end.

End std.

(** ** namespace cuspatial::detail *)
Module detail.

(** [[
template <typename T, typename... Ts>
constexpr bool is_same()
{
  return std::conjunction_v<std::is_same<T, Ts>...>;
}
]] *)
Definition is_same (T : cpp_type) (Ts : list cpp_type) : bool :=
  std.conjunction_v (map (fun Ts => std.is_same T Ts) Ts).

(** [[
template <typename U, typename... Ts>
constexpr bool is_convertible_to()
{
  return std::conjunction_v<std::is_convertible<Ts, U>...>;
}
]] *)
Definition is_convertible_to (E : environment) (U : cpp_type)
  (Ts : list cpp_type) : bool :=
  std.conjunction_v (map (fun Ts => std.is_convertible E Ts U) Ts).

(** [[
template <typename... Ts>
constexpr bool is_floating_point()
{
  return std::conjunction_v<std::is_floating_point<Ts>...>;
}
]] *)
Definition is_floating_point (Ts : list cpp_type) : bool :=
  std.conjunction_v (map (fun Ts => std.is_floating_point Ts) Ts).

(** [[
template <typename... Ts>
constexpr bool is_integral()
{
  return std::conjunction_v<std::is_integral<Ts>...>;
}
]] *)
Definition is_integral (Ts : list cpp_type) : bool :=
  std.conjunction_v (map (fun Ts => std.is_integral Ts) Ts).

(** [[
template <typename T, typename... Ts>
constexpr bool is_same_floating_point()
{
  return std::conjunction_v<std::is_same<T, Ts>...> and
         std::conjunction_v<std::is_floating_point<Ts>...>;
}
]] *)
Definition is_same_floating_point (T : cpp_type) (Ts : list cpp_type) : bool :=
  std.conjunction_v (map (fun Ts => std.is_same T Ts) Ts) &&
  std.conjunction_v (map (fun Ts => std.is_floating_point Ts) Ts).

(** [[
template <typename Iterator>
using iterator_value_type = typename std::iterator_traits<Iterator>::value_type;
]] *)
Definition iterator_value_type (E : environment) (Iterator : cpp_type)
  : option cpp_type :=
  std.iterator_traits_value_type E Iterator.

(** [[
template <typename Iterator>
using iterator_vec_base_type = typename iterator_value_type<Iterator>::value_type;
]] *)
Definition iterator_vec_base_type (E : environment) (Iterator : cpp_type)
  : option cpp_type :=
  match iterator_value_type E Iterator with
  | Some V => nested_type E V "value_type"
  | None => None
  end.

End detail.

(** ** Vocabulary of the specification *)

(** The floating-point types of [basic.fundamental]: [float], [double] and
    [long double], possibly cv-qualified. *)
Definition floating_point_type (T : cpp_type) : Prop :=
  exists q f, T = Fundamental q f /\ In f [Float; Double; LongDouble].

(** The integral types of [basic.fundamental]: [bool], the character types
    and the signed and unsigned integer types, possibly cv-qualified. *)
Definition integral_type (T : cpp_type) : Prop :=
  exists q f, T = Fundamental q f /\
    In f [Bool; Char; SignedChar; UnsignedChar; WcharT; Char16T; Char32T;
          Short; UnsignedShort; Int; UnsignedInt; Long; UnsignedLong;
          LongLong; UnsignedLongLong].

(** The qualification of a type, [basic.type.qualifier]: an array is as
    qualified as its elements and a reference is never qualified. *)
Fixpoint cv_of (T : cpp_type) : cv_qualifier :=
  match T with
  | Fundamental q _ | Pointer q _ | Named q _ _ => q
  | ArrayOf e _ => cv_of e
  | LvalueReference _ | RvalueReference _ => unqualified
  end.

Definition is_const (T : cpp_type) : bool := cv_const (cv_of T).

(** [const_version V T]: [T] is the type [const V], for a [V] that is not
    const already. *)
Inductive const_version : cpp_type -> cpp_type -> Prop :=
  | const_fundamental v f :
      const_version (Fundamental (CV false v) f) (Fundamental (CV true v) f)
  | const_pointer v p :
      const_version (Pointer (CV false v) p) (Pointer (CV true v) p)
  | const_named v k n :
      const_version (Named (CV false v) k n) (Named (CV true v) k n)
  | const_array e e' b :
      const_version e e' -> const_version (ArrayOf e b) (ArrayOf e' b).

(** Object types, [basic.types]: neither [void] nor a reference. *)
Inductive object_type : cpp_type -> Prop :=
  | object_fundamental q f : f <> Void -> object_type (Fundamental q f)
  | object_pointer q p : object_type (Pointer q p)
  | object_array e b : object_type (ArrayOf e b)
  | object_named q k n : object_type (Named q k n).

(** The associated-type convention for iterators, case by case as
    [iterator.traits] words it: [Iterator] declares the element type [V]
    - through a specialization of [std::iterator_traits] in the program;
    - as a pointer [V*] to an object type, the pointer itself unqualified;
    - as a pointer [const V*] to an object type, likewise;
    - as a class or union that declares all of [difference_type],
      [value_type], [pointer], [reference] and [iterator_category], [V]
      being its [value_type]. *)
Inductive declares_element_type (E : environment) : cpp_type -> cpp_type -> Prop :=
  | declared_by_specialization Iterator V :
      traits_specialization E Iterator = Some (Some V) ->
      declares_element_type E Iterator V
  | declared_by_pointer V :
      traits_specialization E (Pointer unqualified V) = None ->
      object_type V -> is_const V = false ->
      declares_element_type E (Pointer unqualified V) V
  | declared_by_pointer_to_const V T :
      traits_specialization E (Pointer unqualified T) = None ->
      object_type V -> const_version V T ->
      declares_element_type E (Pointer unqualified T) V
  | declared_by_members q k C V D P R G :
      traits_specialization E (Named q k C) = None ->
      k <> EnumKind ->
      member_type E C "difference_type" = Some D ->
      member_type E C "value_type" = Some V ->
      member_type E C "pointer" = Some P ->
      member_type E C "reference" = Some R ->
      member_type E C "iterator_category" = Some G ->
      declares_element_type E (Named q k C) V.

(** The point-like convention: the element type is a class or union, of any
    qualification, that declares the component type [C] as its member
    [value_type]. *)
Inductive declares_component_type (E : environment) : cpp_type -> cpp_type -> Prop :=
  | component_of_class q k name C :
      k <> EnumKind ->
      member_type E name "value_type" = Some C ->
      declares_component_type E (Named q k name) C.

(** ** A program to instantiate the header with *)

Definition cpp_int : cpp_type := Fundamental unqualified Int.
Definition cpp_float : cpp_type := Fundamental unqualified Float.
Definition cpp_double : cpp_type := Fundamental unqualified Double.

(** Modelled from the spec: [cuspatial::vec_2d<T>], the point type of the
    library, which bundles two coordinates of type [T] and declares [T] as
    its member [value_type]; here for [T] one of [float] and [double]. *)
Definition vec_2d_float : cpp_type := Named unqualified ClassKind "cuspatial::vec_2d<float>".
Definition vec_2d_double : cpp_type := Named unqualified ClassKind "cuspatial::vec_2d<double>".

(** An iterator class over [vec_2d<double>], as a container would define it. *)
Definition point_iterator : cpp_type := Named unqualified ClassKind "point_iterator".

(** Sizes of the LP64 data model, in bits; the two point classes hold two
    coordinates each, the iterator holds a pointer, and any other class of
    the program is an empty tag. *)
Fixpoint lp64_width (T : cpp_type) : N :=
  match T with
  | Fundamental _ f =>
      match f with
      | Void => 0
      | Bool | Char | SignedChar | UnsignedChar => 8
      | Short | UnsignedShort | Char16T => 16
      | Int | UnsignedInt | WcharT | Char32T | Float => 32
      | Long | UnsignedLong | LongLong | UnsignedLongLong | Double
      | NullptrT => 64
      | LongDouble => 128
      end
  | Pointer _ _ => 64
  | LvalueReference U | RvalueReference U => lp64_width U
  | ArrayOf U bound => default 0 bound * lp64_width U
  | Named _ _ name =>
      if bool_decide (name = "cuspatial::vec_2d<float>") then 64
      else if bool_decide (name = "cuspatial::vec_2d<double>") then 128
      else if bool_decide (name = "point_iterator") then 64
      else 8
  end%N.

Definition is_arithmetic (T : cpp_type) : bool :=
  std.is_integral T || std.is_floating_point T.

(** The implicit conversions of a program without inheritance, converting
    constructors or conversion functions, whose classes are copyable and
    whose enumerations are unscoped: what is left of [conv] and [dcl.init]
    are the standard conversions and the binding of references. *)

(** [q] has no qualifier that [q'] lacks. *)
Definition cv_le (q q' : cv_qualifier) : bool :=
  implb (cv_const q) (cv_const q') && implb (cv_volatile q) (cv_volatile q').

(** [std::remove_cv_t<T>]. *)
Fixpoint remove_cv (T : cpp_type) : cpp_type :=
  match T with
  | Fundamental _ f => Fundamental unqualified f
  | Pointer _ p => Pointer unqualified p
  | Named _ k n => Named unqualified k n
  | ArrayOf e b => ArrayOf (remove_cv e) b
  | LvalueReference _ | RvalueReference _ => T
  end.

(** [std::remove_reference_t<T>]. *)
Definition remove_reference (T : cpp_type) : cpp_type :=
  match T with
  | LvalueReference U | RvalueReference U => U
  | _ => T
  end.

(** Qualification conversion between the pointees of two pointers,
    [conv.qual]: qualifiers may be added at a level provided every level
    above it, the first apart, is const in the destination. *)
Fixpoint qualification_conversion (all_const : bool) (Src Dst : cpp_type) : bool :=
  let added q q' := cv_le q q' && (bool_decide (q = q') || all_const) in
  match Src, Dst with
  | Fundamental q f, Fundamental q' f' => bool_decide (f = f') && added q q'
  | Named q k n, Named q' k' n' =>
      bool_decide (k = k') && bool_decide (n = n') && added q q'
  | Pointer q s, Pointer q' d =>
      added q q' && qualification_conversion (all_const && cv_const q') s d
  | ArrayOf s b, ArrayOf d b' =>
      bool_decide (b = b') && qualification_conversion all_const s d
  | _, _ => false
  end.

(** Conversion of a pointer to [Src] into a pointer to [Dst], [conv.ptr] and
    [conv.qual]: a qualification conversion, or a conversion to a pointer
    to [void] that drops no qualifier. *)
Definition pointer_conversion (Src Dst : cpp_type) : bool :=
  qualification_conversion true Src Dst ||
  match Dst with
  | Fundamental q' Void => std.is_object Src && cv_le (cv_of Src) q'
  | _ => false
  end.

(** The type of the expression [declval<From>()] once the lvalue-to-rvalue
    and array-to-pointer conversions have been applied, [conv.lval],
    [conv.array]. *)
Definition decayed (From : cpp_type) : cpp_type :=
  match remove_reference From with
  | ArrayOf e _ => Pointer unqualified e
  | Y => remove_cv Y
  end.

(** Copy-initialization of an object of the type [To], not a reference,
    from [declval<From>()]; the qualification of [To] plays no role, and a
    class is copied from any operand of its own type that is not volatile. *)
Definition value_conversion (From To : cpp_type) : bool :=
  match To with
  | Fundamental _ Void =>
      bool_decide (std.primary_category From = std.VoidCat)
  | Fundamental _ NullptrT =>
      bool_decide (std.primary_category (decayed From) = std.NullPointerCat)
  | Fundamental _ f =>
      match decayed From with
      | Fundamental _ _ => is_arithmetic (decayed From)
      | Named _ EnumKind _ => true
      | Pointer _ _ => bool_decide (f = Bool)
      | _ => false
      end
  | Pointer _ Dst =>
      match decayed From with
      | Fundamental _ NullptrT => true
      | Pointer _ Src => pointer_conversion Src Dst
      | _ => false
      end
  | Named _ EnumKind n =>
      bool_decide (decayed From = Named unqualified EnumKind n)
  | Named _ k n =>
      bool_decide (decayed From = Named unqualified k n) &&
      negb (cv_volatile (cv_of (remove_reference From)))
  | ArrayOf _ _ | LvalueReference _ | RvalueReference _ => false
  end.

(** [T1] and [T2] are the same type up to their qualification,
    [dcl.init.ref]. *)
Definition reference_related (T1 T2 : cpp_type) : bool :=
  bool_decide (remove_cv T1 = remove_cv T2).

(** They are, and [T1] is at least as qualified as [T2]. *)
Definition reference_compatible (T1 T2 : cpp_type) : bool :=
  reference_related T1 T2 && cv_le (cv_of T2) (cv_of T1).

(** Initialization of an object or reference of the type [To] from
    [declval<From>()], which is an lvalue when [From] is an lvalue reference
    and an xvalue otherwise.  A reference binds directly to a compatible
    operand: an lvalue reference to an lvalue, or to anything when it is a
    reference to const and no more; an rvalue reference to an xvalue.
    Failing that, a reference to const or an rvalue reference binds to a
    temporary converted from an operand of an unrelated type. *)
Definition sample_convertible (From To : cpp_type) : bool :=
  let Y := remove_reference From in
  let lvalue := bool_decide (std.primary_category From = std.LvalueReferenceCat) in
  match To with
  | LvalueReference X =>
      let to_const := bool_decide (cv_of X = const) in
      reference_compatible X Y && (lvalue || to_const) ||
      to_const && negb (reference_related X Y) && value_conversion From X
  | RvalueReference X =>
      reference_compatible X Y && negb lvalue ||
      negb (reference_related X Y) && value_conversion From X
  | _ => value_conversion From To
  end.

(** The member types of the classes of the program. *)
Definition sample_member_type (C n : string) : option cpp_type :=
  if bool_decide (C = "cuspatial::vec_2d<float>") then
    (if bool_decide (n = "value_type") then Some cpp_float else None)
  else if bool_decide (C = "cuspatial::vec_2d<double>") then
    (if bool_decide (n = "value_type") then Some cpp_double else None)
  else if bool_decide (C = "point_iterator") then
    (if bool_decide (n = "value_type") then Some vec_2d_double
     else if bool_decide (n = "difference_type") then Some (Fundamental unqualified Long)
     else if bool_decide (n = "pointer") then Some (Pointer unqualified vec_2d_double)
     else if bool_decide (n = "reference") then Some (LvalueReference vec_2d_double)
     else if bool_decide (n = "iterator_category") then
       Some (Named unqualified ClassKind "std::random_access_iterator_tag")
     else None)
  else None.

Definition sample : environment :=
  {| width := lp64_width;
     convertible := sample_convertible;
     member_type := sample_member_type;
     traits_specialization := fun _ => None |}.

(** Membership of a concrete type in [floating_point_type] or
    [integral_type], by evaluation. *)
Ltac fundamental_member :=
  eexists _, _; split; [reflexivity | simpl; tauto].

(** The scenario of the specification, evaluated: an iterator over points
    with [double] coordinates, and pointers used as iterators. *)
Example point_iterator_value_type :
  detail.iterator_value_type sample point_iterator = Some vec_2d_double.
Proof. reflexivity. Qed.

Example point_iterator_vec_base_type :
  detail.iterator_vec_base_type sample point_iterator = Some cpp_double.
Proof. reflexivity. Qed.

Example point_pointer_vec_base_type :
  detail.iterator_vec_base_type sample
    (Pointer unqualified (Named const ClassKind "cuspatial::vec_2d<float>"))
  = Some cpp_float.
Proof. reflexivity. Qed.

(** A scalar has no member [value_type]: the two-level projection of
    [double*] is a substitution failure, and so is either projection of a
    class that lacks the iterator member types. *)
Example scalar_pointer_vec_base_type :
  detail.iterator_value_type sample (Pointer unqualified cpp_double) = Some cpp_double /\
  detail.iterator_vec_base_type sample (Pointer unqualified cpp_double) = None /\
  detail.iterator_value_type sample vec_2d_double = None.
Proof. repeat split. Qed.

(** Matching precision across two point iterators is accepted, mixed
    precision is rejected. *)
Example matching_precision :
  match detail.iterator_vec_base_type sample point_iterator,
        detail.iterator_vec_base_type sample (Pointer unqualified vec_2d_double),
        detail.iterator_vec_base_type sample (Pointer unqualified vec_2d_float)
  with
  | Some T, Some U, Some V =>
      detail.is_same_floating_point T [U] = true /\
      detail.is_same_floating_point T [V] = false
  | _, _, _ => False
  end.
Proof. split; reflexivity. Qed.

(** ** Folding a pack with [std::conjunction_v] *)

Lemma conjunction_v_cons (b : bool) (B : list bool) :
  std.conjunction_v (b :: B) = b && std.conjunction_v B.
Proof.
  destruct B as [|b' B]; simpl.
  - now rewrite andb_true_r.
  - now destruct b.
Qed.

Lemma conjunction_v_pack {A} (p : A -> bool) (l : list A) :
  std.conjunction_v (map p l) = forallb p l.
Proof.
  induction l as [|x l IH]; [reflexivity|].
  change (map p (x :: l)) with (p x :: map p l).
  rewrite conjunction_v_cons, IH. reflexivity.
Qed.

Lemma conjunction_v_pack_true {A} (p : A -> bool) (l : list A) :
  std.conjunction_v (map p l) = true <-> Forall (fun x => p x = true) l.
Proof.
  rewrite conjunction_v_pack, forallb_forall, Forall_forall.
  split; intros H x Hx; apply H; now apply list_elem_of_In.
Qed.

Lemma conjunction_v_pack_false {A} (p : A -> bool) (l : list A) (x : A) :
  In x l -> p x = false -> std.conjunction_v (map p l) = false.
Proof.
  intros Hx Hp. apply not_true_is_false. intros H.
  apply conjunction_v_pack_true in H. rewrite Forall_forall in H.
  apply list_elem_of_In in Hx. specialize (H x Hx). congruence.
Qed.

Lemma conjunction_v_pack_Permutation {A} (p : A -> bool) (l l' : list A) :
  Permutation l l' ->
  std.conjunction_v (map p l) = std.conjunction_v (map p l').
Proof.
  intros HP. rewrite !conjunction_v_pack.
  induction HP as [|x l l' _ IH|x y l|l l' l'' _ IH1 _ IH2]; simpl.
  - reflexivity.
  - now rewrite IH.
  - now rewrite !andb_assoc, (andb_comm (p y) (p x)).
  - now rewrite IH1.
Qed.

(** ** The element traits *)

Lemma is_same_true (T U : cpp_type) : std.is_same T U = true <-> T = U.
Proof. unfold std.is_same. apply bool_decide_eq_true. Qed.

Lemma is_same_false (T U : cpp_type) : std.is_same T U = false <-> T <> U.
Proof. unfold std.is_same. apply bool_decide_eq_false. Qed.

Lemma is_floating_point_type (T : cpp_type) :
  std.is_floating_point T = true <-> floating_point_type T.
Proof.
  unfold std.is_floating_point, floating_point_type.
  rewrite bool_decide_eq_true. split.
  - destruct T as [q f| | | | |? [] ?]; simpl; try discriminate.
    intros Hf. exists q, f. split; [reflexivity|].
    destruct f; simpl in *; try discriminate; tauto.
  - intros (q & f & -> & Hf). simpl in *.
    destruct Hf as [<-|[<-|[<-|[]]]]; reflexivity.
Qed.

Lemma is_integral_type (T : cpp_type) :
  std.is_integral T = true <-> integral_type T.
Proof.
  unfold std.is_integral, integral_type.
  rewrite bool_decide_eq_true. split.
  - destruct T as [q f| | | | |? [] ?]; simpl; try discriminate.
    intros Hf. exists q, f. split; [reflexivity|].
    destruct f; simpl in *; try discriminate; tauto.
  - intros (q & f & -> & Hf). simpl in *.
    repeat (destruct Hf as [<-|Hf]; [reflexivity|]). destruct Hf.
Qed.

(** The primary categories partition the types, so the two traits never
    agree on [true]. *)
Lemma integral_not_floating_point (T : cpp_type) :
  std.is_integral T = true -> std.is_floating_point T = false.
Proof.
  unfold std.is_integral, std.is_floating_point.
  rewrite bool_decide_eq_true, bool_decide_eq_false. congruence.
Qed.

Lemma Forall_replicate_same {A} (x : A) (n : nat) :
  Forall (fun y => y = x) (replicate n x).
Proof. induction n; simpl; constructor; auto. Qed.

Lemma is_same_uniform_pack (T : cpp_type) (n : nat) :
  std.conjunction_v (map (fun Ts => std.is_same T Ts) (replicate n T)) = true.
Proof.
  apply conjunction_v_pack_true.
  eapply Forall_impl; [apply (Forall_replicate_same T)|].
  intros U ->. now apply is_same_true.
Qed.

Lemma is_object_type (T : cpp_type) :
  std.is_object T = true <-> object_type T.
Proof.
  split.
  - destruct T as [q f| | | | |]; try discriminate; try constructor.
    now destruct f.
  - intros [q f Hf| | |q k n]; try reflexivity.
    + now destruct f.
    + now destruct k.
Qed.

Lemma const_version_remove_const (V T : cpp_type) :
  const_version V T -> remove_const T = V.
Proof. induction 1; simpl; congruence. Qed.

Lemma const_version_category (V T : cpp_type) :
  const_version V T -> std.primary_category V = std.primary_category T.
Proof. now destruct 1. Qed.

Lemma const_version_object (V T : cpp_type) :
  const_version V T -> std.is_object V = std.is_object T.
Proof.
  intros H. unfold std.is_object. now rewrite (const_version_category V T H).
Qed.

(** A type is either not const, or the const version of what
    [std::remove_const_t] makes of it. *)
Lemma remove_const_const_version (T : cpp_type) :
  if is_const T then const_version (remove_const T) T
  else remove_const T = T.
Proof.
  unfold is_const.
  induction T as [[[] v] f|[[] v] p _| | |e IH b|[[] v] k n]; simpl;
    try reflexivity; try constructor.
  destruct (cv_const (cv_of e)); [now constructor | now rewrite IH].
Qed.

(** The primary template of [std::iterator_traits] has a [value_type]
    exactly for the classes and unions that declare the five member types. *)
Lemma iterator_member_types_found (E : environment) (Iterator V : cpp_type) :
  forallb (fun n => bool_decide (is_Some (nested_type E Iterator n)))
          std.iterator_member_types = true /\
  nested_type E Iterator "value_type" = Some V <->
  exists q k C D P R G,
    Iterator = Named q k C /\ k <> EnumKind /\
    member_type E C "difference_type" = Some D /\
    member_type E C "value_type" = Some V /\
    member_type E C "pointer" = Some P /\
    member_type E C "reference" = Some R /\
    member_type E C "iterator_category" = Some G.
Proof.
  split.
  - intros [Hall HV].
    assert (exists q k C, Iterator = Named q k C /\ k <> EnumKind /\
              forall n, nested_type E Iterator n = member_type E C n)
      as (q & k & C & -> & Hk & Hn).
    { destruct Iterator as [| | | | |q k C]; try discriminate.
      destruct k; try discriminate;
        [exists q, ClassKind, C | exists q, UnionKind, C]; now repeat split. }
    rewrite Hn in HV. cbn [std.iterator_member_types forallb] in Hall.
    rewrite !Hn, !andb_true_iff, !bool_decide_eq_true in Hall.
    destruct Hall as ([D HD] & _ & [P HP] & [R HR] & [G HG] & _).
    exists q, k, C, D, P, R, G. now repeat split.
  - intros (q & k & C & D & P & R & G & -> & Hk & HD & HV & HP & HR & HG).
    assert (forall n, nested_type E (Named q k C) n = member_type E C n) as Hn
      by now destruct k.
    rewrite Hn. split; [|exact HV].
    cbn [std.iterator_member_types forallb].
    rewrite !Hn, HD, HV, HP, HR, HG. reflexivity.
Qed.

(** The projection finds an element type exactly when the iterator declares
    one by the convention. *)
Lemma iterator_value_type_declared (E : environment) (Iterator V : cpp_type) :
  detail.iterator_value_type E Iterator = Some V <->
  declares_element_type E Iterator V.
Proof.
  unfold detail.iterator_value_type, std.iterator_traits_value_type. split.
  - destruct (traits_specialization E Iterator) as [m|] eqn:Hs.
    { intros ->. now apply declared_by_specialization. }
    assert ((if forallb (fun n => bool_decide (is_Some (nested_type E Iterator n)))
                  std.iterator_member_types
             then nested_type E Iterator "value_type" else None) = Some V ->
            declares_element_type E Iterator V) as Hprimary.
    { destruct (forallb _ _) eqn:Hall; [|discriminate]. intros HV.
      destruct (proj1 (iterator_member_types_found E Iterator V) (conj Hall HV))
        as (q & k & C & D & P & R & G & -> & Hk & HD & HV' & HP & HR & HG).
      now apply (declared_by_members E q k C V D P R G). }
    destruct Iterator as [| [[] []] T | | | |]; try exact Hprimary.
    destruct (std.is_object T) eqn:Hobj; [|discriminate].
    intros [= <-]. pose proof (remove_const_const_version T) as HT.
    destruct (is_const T) eqn:Hc.
    + apply declared_by_pointer_to_const; trivial.
      apply is_object_type. now rewrite (const_version_object _ _ HT).
    + rewrite HT. apply declared_by_pointer; trivial.
      now apply is_object_type.
  - intros [It V' Hs | V' Hs Hobj Hc | V' T Hs Hobj HT
           | q k C V' D P R G Hs Hk HD HV HP HR HG].
    + now rewrite Hs.
    + rewrite Hs. apply is_object_type in Hobj. rewrite Hobj.
      pose proof (remove_const_const_version V') as HV. rewrite Hc in HV.
      now rewrite HV.
    + rewrite Hs. apply is_object_type in Hobj.
      rewrite <- (const_version_object _ _ HT), Hobj.
      now rewrite (const_version_remove_const _ _ HT).
    + rewrite Hs.
      destruct (proj2 (iterator_member_types_found E (Named q k C) V'))
        as [Hall HV'].
      { exists q, k, C, D, P, R, G. now repeat split. }
      now rewrite Hall.
Qed.

(** Outside the empty pack the reference type is itself floating-point: it
    equals the first candidate, which the second conjunct inspects. *)
Lemma is_same_floating_point_reference (T : cpp_type) (Ts : list cpp_type) :
  Ts <> [] -> detail.is_same_floating_point T Ts = true ->
  floating_point_type T.
Proof.
  intros Hne H. unfold detail.is_same_floating_point in H.
  apply andb_true_iff in H as [Hs Hf].
  destruct Ts as [|U Ts]; [congruence|].
  apply conjunction_v_pack_true, Forall_cons in Hs as [Hs _].
  apply conjunction_v_pack_true, Forall_cons in Hf as [Hf _].
  apply is_same_true in Hs as ->. now apply is_floating_point_type.
Qed.

(** ** The predicates *)

(** C4: [is_same<T, Ts...>()] is true exactly when every candidate is the
    type [T] itself; over [n >= 1] copies of [T] it is true against the
    reference [T] and false against any other reference [T'], and over the
    empty pack it is true whatever the reference. *)
Theorem is_same_exactly_reference (T T' : cpp_type) (Ts : list cpp_type) (n : nat) :
  (detail.is_same T Ts = true <-> Forall (fun U => U = T) Ts) /\
  detail.is_same T (replicate (S n) T) = true /\
  (T' <> T -> detail.is_same T' (replicate (S n) T) = false) /\
  detail.is_same T [] = true.
Proof.
  unfold detail.is_same. repeat split.
  - intros H. apply conjunction_v_pack_true in H.
    eapply Forall_impl; [exact H|]. intros U HU. symmetry.
    now apply is_same_true.
  - intros H. apply conjunction_v_pack_true.
    eapply Forall_impl; [exact H|]. intros U ->. now apply is_same_true.
  - apply is_same_uniform_pack.
  - intros Hne. apply conjunction_v_pack_false with (x := T).
    + now left.
    + now apply is_same_false.
Qed.

Lemma is_same_exactly_reference_witness :
  cpp_float <> cpp_double /\
  detail.is_same cpp_float (replicate 3 cpp_double) = false.
Proof.
  split; [discriminate|].
  destruct (is_same_exactly_reference cpp_double cpp_float [] 2) as (_ & _ & H & _).
  apply H. discriminate.
Defined.

(** Identity of types is not convertibility: [float] converts to [double]
    and is still rejected against the reference [double]; nor does identity
    look through qualifiers, which the category traits ignore. *)
Example is_same_ignores_conversions :
  std.is_convertible sample cpp_float cpp_double = true /\
  detail.is_same cpp_double [cpp_float] = false /\
  detail.is_same cpp_double [Fundamental const Double] = false /\
  detail.is_floating_point [Fundamental const_volatile Double] = true /\
  detail.is_integral [Fundamental volatile UnsignedInt] = true.
Proof. repeat split. Qed.

(** C5: [is_convertible_to<U, Ts...>()] is true exactly when every candidate
    converts implicitly to [U] by the rules of the language; it is true over
    the empty pack and false as soon as one candidate has no implicit
    conversion to [U]. *)
Theorem is_convertible_to_every_candidate (E : environment) (U T : cpp_type)
  (Ts : list cpp_type) :
  (detail.is_convertible_to E U Ts = true <->
   Forall (fun From => convertible E From U = true) Ts) /\
  detail.is_convertible_to E U [] = true /\
  (In T Ts -> convertible E T U = false ->
   detail.is_convertible_to E U Ts = false).
Proof.
  unfold detail.is_convertible_to, std.is_convertible. repeat split.
  - now intros H; apply conjunction_v_pack_true in H.
  - now intros H; apply conjunction_v_pack_true.
  - intros HT Hc.
    now apply conjunction_v_pack_false with (x := T).
Qed.

Lemma is_convertible_to_every_candidate_witness :
  In vec_2d_double [cpp_int; vec_2d_double; cpp_float] /\
  convertible sample vec_2d_double cpp_double = false /\
  detail.is_convertible_to sample cpp_double [cpp_int; vec_2d_double; cpp_float]
  = false.
Proof.
  assert (In vec_2d_double [cpp_int; vec_2d_double; cpp_float]) as Hin
    by (right; left; reflexivity).
  assert (convertible sample vec_2d_double cpp_double = false) as Hc
    by reflexivity.
  split; [exact Hin|]. split; [exact Hc|].
  destruct (is_convertible_to_every_candidate sample cpp_double vec_2d_double
              [cpp_int; vec_2d_double; cpp_float]) as (_ & _ & H).
  exact (H Hin Hc).
Defined.

(** A mix of integral and floating-point candidates that all convert to the
    floating-point target is accepted. *)
Example is_convertible_to_mixed_arithmetic :
  detail.is_convertible_to sample cpp_double
    [cpp_int; cpp_float; Fundamental const UnsignedLong; cpp_double] = true.
Proof. reflexivity. Qed.

(** C6: [is_floating_point<Ts...>()] is true exactly when every candidate is
    a floating-point type; it is true over the empty pack and false over any
    pack that contains an integral type. *)
Theorem is_floating_point_every_candidate (Ts : list cpp_type) (i : cpp_type) :
  (detail.is_floating_point Ts = true <-> Forall floating_point_type Ts) /\
  detail.is_floating_point [] = true /\
  (integral_type i -> In i Ts -> detail.is_floating_point Ts = false).
Proof.
  unfold detail.is_floating_point. repeat split.
  - intros H. apply conjunction_v_pack_true in H.
    eapply Forall_impl; [exact H|]. intros T. apply is_floating_point_type.
  - intros H. apply conjunction_v_pack_true.
    eapply Forall_impl; [exact H|]. intros T. apply is_floating_point_type.
  - intros Hi Hin. apply conjunction_v_pack_false with (x := i); trivial.
    now apply integral_not_floating_point, is_integral_type.
Qed.

Lemma is_floating_point_every_candidate_witness :
  integral_type cpp_int /\ In cpp_int [cpp_double; cpp_int] /\
  detail.is_floating_point [cpp_double; cpp_int] = false.
Proof.
  assert (integral_type cpp_int) as Hi
    by fundamental_member.
  assert (In cpp_int [cpp_double; cpp_int]) as Hin
    by (right; left; reflexivity).
  split; [exact Hi|]. split; [exact Hin|].
  destruct (is_floating_point_every_candidate [cpp_double; cpp_int] cpp_int)
    as (_ & _ & H).
  exact (H Hi Hin).
Defined.

(** C7: [is_integral<Ts...>()] is true exactly when every candidate is an
    integral type, signed or unsigned; in particular it is true over any two
    integral types. *)
Theorem is_integral_every_candidate (Ts : list cpp_type) (i1 i2 : cpp_type) :
  (detail.is_integral Ts = true <-> Forall integral_type Ts) /\
  (integral_type i1 -> integral_type i2 -> detail.is_integral [i1; i2] = true).
Proof.
  unfold detail.is_integral. repeat split.
  - intros H. apply conjunction_v_pack_true in H.
    eapply Forall_impl; [exact H|]. intros T. apply is_integral_type.
  - intros H. apply conjunction_v_pack_true.
    eapply Forall_impl; [exact H|]. intros T. apply is_integral_type.
  - intros H1 H2. apply conjunction_v_pack_true.
    repeat constructor; now apply is_integral_type.
Qed.

Lemma is_integral_every_candidate_witness :
  integral_type cpp_int /\ integral_type (Fundamental const UnsignedChar) /\
  detail.is_integral [cpp_int; Fundamental const UnsignedChar] = true.
Proof.
  assert (integral_type cpp_int) as H1
    by fundamental_member.
  assert (integral_type (Fundamental const UnsignedChar)) as H2
    by fundamental_member.
  split; [exact H1|]. split; [exact H2|].
  destruct (is_integral_every_candidate [] cpp_int (Fundamental const UnsignedChar))
    as (_ & H).
  exact (H H1 H2).
Defined.

(** C9: no type passes both [is_floating_point<X>()] and [is_integral<X>()]. *)
Theorem floating_point_and_integral_exclusive (X : cpp_type) :
  detail.is_floating_point [X] && detail.is_integral [X] = false.
Proof.
  unfold detail.is_floating_point, detail.is_integral. simpl.
  destruct (std.is_integral X) eqn:Hi.
  - now rewrite (integral_not_floating_point X Hi).
  - apply andb_false_r.
Qed.

(** C10: over the empty pack [is_same_floating_point<T>()] is true for every
    reference type [T], integral ones included: both conjunctions are empty
    and [T] is not looked at. *)
Theorem is_same_floating_point_empty_pack (T : cpp_type) :
  detail.is_same_floating_point T [] = true /\
  detail.is_same T [] = true /\ detail.is_floating_point [] = true /\
  detail.is_same_floating_point cpp_int [] = true.
Proof. repeat split. Qed.

(** C1: [is_same_floating_point<T, Ts...>()] is true exactly when both
    [is_same<T, Ts...>()] and [is_floating_point<Ts...>()] are; it is false
    over two floating-point types of differing width with either of them as
    reference, although [is_floating_point] accepts the pair, and false over
    [n >= 1] copies of one integral type, although [is_same] accepts them. *)
Theorem is_same_floating_point_both (E : environment) (T f1 f2 i : cpp_type)
  (Ts : list cpp_type) (n : nat) :
  (detail.is_same_floating_point T Ts = true <->
   detail.is_same T Ts = true /\ detail.is_floating_point Ts = true) /\
  (floating_point_type f1 -> floating_point_type f2 ->
   width E f1 <> width E f2 ->
   detail.is_floating_point [f1; f2] = true /\
   detail.is_same_floating_point f1 [f1; f2] = false /\
   detail.is_same_floating_point f2 [f1; f2] = false) /\
  (integral_type i ->
   detail.is_same i (replicate (S n) i) = true /\
   detail.is_same_floating_point T (replicate (S n) i) = false).
Proof.
  split; [|split].
  - unfold detail.is_same_floating_point, detail.is_same,
      detail.is_floating_point.
    apply andb_true_iff.
  - intros Hf1 Hf2 Hw.
    assert (f1 <> f2) as Hne by (intros ->; now apply Hw).
    apply is_floating_point_type in Hf1, Hf2.
    apply is_same_false in Hne as H12.
    assert (std.is_same f2 f1 = false) as H21
      by (apply is_same_false; congruence).
    unfold detail.is_floating_point, detail.is_same_floating_point.
    rewrite !conjunction_v_pack. simpl.
    rewrite Hf1, Hf2, H12, H21. simpl.
    now rewrite !andb_false_r.
  - intros Hi. split.
    + apply is_same_uniform_pack.
    + unfold detail.is_same_floating_point.
      rewrite (conjunction_v_pack_false std.is_floating_point _ i).
      * apply andb_false_r.
      * now left.
      * now apply integral_not_floating_point, is_integral_type.
Qed.

Lemma is_same_floating_point_both_witness :
  (floating_point_type cpp_float /\ floating_point_type cpp_double /\
   width sample cpp_float <> width sample cpp_double /\
   detail.is_floating_point [cpp_float; cpp_double] = true /\
   detail.is_same_floating_point cpp_float [cpp_float; cpp_double] = false /\
   detail.is_same_floating_point cpp_double [cpp_float; cpp_double] = false) /\
  (integral_type cpp_int /\
   detail.is_same cpp_int (replicate 2 cpp_int) = true /\
   detail.is_same_floating_point cpp_int (replicate 2 cpp_int) = false).
Proof.
  assert (floating_point_type cpp_float) as Hf1 by fundamental_member.
  assert (floating_point_type cpp_double) as Hf2 by fundamental_member.
  assert (width sample cpp_float <> width sample cpp_double) as Hw
    by (simpl; discriminate).
  assert (integral_type cpp_int) as Hi by fundamental_member.
  destruct (is_same_floating_point_both sample cpp_int cpp_float cpp_double
              cpp_int [] 1) as (_ & Hmixed & Huniform).
  split.
  - split; [exact Hf1|]. split; [exact Hf2|]. split; [exact Hw|].
    exact (Hmixed Hf1 Hf2 Hw).
  - split; [exact Hi|]. exact (Huniform Hi).
Defined.

(** C2 fails on the empty pack: [is_same_floating_point<int>()] is true,
    and [int] is not a floating-point type.  For a pack that is not empty
    the reference type is floating-point, see
    [is_same_floating_point_reference]. *)
Theorem is_same_floating_point_integral_reference :
  detail.is_same_floating_point cpp_int [] = true /\
  std.is_floating_point cpp_int = false /\
  std.is_integral cpp_int = true.
Proof. repeat split. Qed.

(** C3: an iterator declares the element type [V] by the iterator
    convention exactly when [iterator_value_type] is [V]; when [V] in turn
    declares the component type [C], [iterator_vec_base_type] is exactly
    [C]; and the two-level projection is the inner-type extraction applied
    to the result of the element-type projection: it yields [C] exactly when
    the element type found by [iterator_value_type] declares [C]. *)
Theorem iterator_projections_exact (E : environment) (Iterator V C : cpp_type) :
  (declares_element_type E Iterator V <->
   detail.iterator_value_type E Iterator = Some V) /\
  (declares_element_type E Iterator V -> declares_component_type E V C ->
   detail.iterator_vec_base_type E Iterator = Some C) /\
  (detail.iterator_vec_base_type E Iterator = Some C <->
   exists V', detail.iterator_value_type E Iterator = Some V' /\
              declares_component_type E V' C).
Proof.
  assert (forall V', nested_type E V' "value_type" = Some C <->
                     declares_component_type E V' C) as Hcomponent.
  { intros V'. split.
    - destruct V' as [| | | | |q k name]; try discriminate.
      destruct k; try discriminate; intros H; now constructor.
    - intros [q k name C' Hk HC]. now destruct k. }
  split; [|split].
  - symmetry. apply iterator_value_type_declared.
  - intros HV HC. apply iterator_value_type_declared in HV.
    unfold detail.iterator_vec_base_type. rewrite HV. now apply Hcomponent.
  - unfold detail.iterator_vec_base_type.
    destruct (detail.iterator_value_type E Iterator) as [V'|]; split.
    + intros H. exists V'. split; [reflexivity|]. now apply Hcomponent.
    + intros (V'' & [= <-] & H). now apply Hcomponent.
    + discriminate.
    + now intros (V'' & [=] & _).
Qed.

Lemma iterator_projections_exact_witness :
  (declares_element_type sample point_iterator vec_2d_double /\
   declares_component_type sample vec_2d_double cpp_double /\
   detail.iterator_value_type sample point_iterator = Some vec_2d_double /\
   detail.iterator_vec_base_type sample point_iterator = Some cpp_double) /\
  (declares_element_type sample
     (Pointer unqualified (Named const ClassKind "cuspatial::vec_2d<float>"))
     vec_2d_float /\
   declares_component_type sample vec_2d_float cpp_float /\
   detail.iterator_value_type sample
     (Pointer unqualified (Named const ClassKind "cuspatial::vec_2d<float>"))
   = Some vec_2d_float /\
   detail.iterator_vec_base_type sample
     (Pointer unqualified (Named const ClassKind "cuspatial::vec_2d<float>"))
   = Some cpp_float).
Proof.
  assert (declares_element_type sample point_iterator vec_2d_double) as HV.
  { eapply declared_by_members; first [reflexivity | discriminate]. }
  assert (declares_component_type sample vec_2d_double cpp_double) as HC.
  { constructor; [discriminate | reflexivity]. }
  assert (declares_element_type sample
            (Pointer unqualified (Named const ClassKind "cuspatial::vec_2d<float>"))
            vec_2d_float) as HV'.
  { apply declared_by_pointer_to_const; [reflexivity| |]; constructor. }
  assert (declares_component_type sample vec_2d_float cpp_float) as HC'.
  { constructor; [discriminate | reflexivity]. }
  destruct (iterator_projections_exact sample point_iterator vec_2d_double
              cpp_double) as (H1 & H2 & _).
  destruct (iterator_projections_exact sample
              (Pointer unqualified (Named const ClassKind "cuspatial::vec_2d<float>"))
              vec_2d_float cpp_float) as (H1' & H2' & _).
  split.
  - split; [exact HV|]. split; [exact HC|].
    split; [exact (proj1 H1 HV) | exact (H2 HV HC)].
  - split; [exact HV'|]. split; [exact HC'|].
    split; [exact (proj1 H1' HV') | exact (H2' HV' HC')].
Defined.

(** C8: none of the five predicates depends on the order of the candidate
    types: permuting the pack leaves every result unchanged. *)
Theorem predicates_order_independent (E : environment) (T : cpp_type)
  (Ts Ts' : list cpp_type) :
  Permutation Ts Ts' ->
  detail.is_same T Ts = detail.is_same T Ts' /\
  detail.is_convertible_to E T Ts = detail.is_convertible_to E T Ts' /\
  detail.is_floating_point Ts = detail.is_floating_point Ts' /\
  detail.is_integral Ts = detail.is_integral Ts' /\
  detail.is_same_floating_point T Ts = detail.is_same_floating_point T Ts'.
Proof.
  intros HP.
  unfold detail.is_same, detail.is_convertible_to, detail.is_floating_point,
    detail.is_integral, detail.is_same_floating_point.
  repeat split; try now apply conjunction_v_pack_Permutation.
  f_equal; now apply conjunction_v_pack_Permutation.
Qed.

Lemma predicates_order_independent_witness :
  Permutation [cpp_float; cpp_double; cpp_int] [cpp_int; cpp_float; cpp_double] /\
  detail.is_same cpp_double [cpp_float; cpp_double; cpp_int] =
    detail.is_same cpp_double [cpp_int; cpp_float; cpp_double] /\
  detail.is_convertible_to sample cpp_double [cpp_float; cpp_double; cpp_int] =
    detail.is_convertible_to sample cpp_double [cpp_int; cpp_float; cpp_double] /\
  detail.is_floating_point [cpp_float; cpp_double; cpp_int] =
    detail.is_floating_point [cpp_int; cpp_float; cpp_double] /\
  detail.is_integral [cpp_float; cpp_double; cpp_int] =
    detail.is_integral [cpp_int; cpp_float; cpp_double] /\
  detail.is_same_floating_point cpp_double [cpp_float; cpp_double; cpp_int] =
    detail.is_same_floating_point cpp_double [cpp_int; cpp_float; cpp_double].
Proof.
  assert (Permutation [cpp_float; cpp_double; cpp_int]
                      [cpp_int; cpp_float; cpp_double]) as HP.
  { apply Permutation_sym. apply (Permutation_cons_append [cpp_float; cpp_double]). }
  split; [exact HP|].
  exact (predicates_order_independent sample cpp_double _ _ HP).
Defined.

(** ** Packs: splitting, shrinking, swapping *)

Lemma conjunction_v_pack_app {A} (p : A -> bool) (l l' : list A) :
  std.conjunction_v (map p (l ++ l')) =
  std.conjunction_v (map p l) && std.conjunction_v (map p l').
Proof. rewrite !conjunction_v_pack. apply forallb_app. Qed.

Lemma conjunction_v_pack_incl {A} (p : A -> bool) (l l' : list A) :
  (forall x, In x l' -> In x l) ->
  std.conjunction_v (map p l) = true -> std.conjunction_v (map p l') = true.
Proof.
  rewrite !conjunction_v_pack, !forallb_forall. intros Hincl H x Hx.
  apply H, Hincl, Hx.
Qed.

(** X1: a check over a concatenated pack is the conjunction of the checks
    over its two parts, for each of the five predicates. *)
Theorem predicates_split_pack (E : environment) (T : cpp_type)
  (Ts Us : list cpp_type) :
  detail.is_same T (Ts ++ Us) = detail.is_same T Ts && detail.is_same T Us /\
  detail.is_convertible_to E T (Ts ++ Us) =
    detail.is_convertible_to E T Ts && detail.is_convertible_to E T Us /\
  detail.is_floating_point (Ts ++ Us) =
    detail.is_floating_point Ts && detail.is_floating_point Us /\
  detail.is_integral (Ts ++ Us) = detail.is_integral Ts && detail.is_integral Us /\
  detail.is_same_floating_point T (Ts ++ Us) =
    detail.is_same_floating_point T Ts && detail.is_same_floating_point T Us.
Proof.
  unfold detail.is_same, detail.is_convertible_to, detail.is_floating_point,
    detail.is_integral, detail.is_same_floating_point.
  repeat split; try apply conjunction_v_pack_app.
  rewrite !conjunction_v_pack_app.
  destruct (std.conjunction_v (map _ Ts)), (std.conjunction_v (map _ Us)),
    (std.conjunction_v (map std.is_floating_point Ts)); reflexivity.
Qed.

(** X2: a pack accepted by one of the predicates stays accepted when
    candidates are dropped or repeated: only the set of candidate types
    counts. *)
Theorem predicates_hold_on_sub_pack (E : environment) (T : cpp_type)
  (Ts Us : list cpp_type) :
  (forall U, In U Us -> In U Ts) ->
  (detail.is_same T Ts = true -> detail.is_same T Us = true) /\
  (detail.is_convertible_to E T Ts = true ->
   detail.is_convertible_to E T Us = true) /\
  (detail.is_floating_point Ts = true -> detail.is_floating_point Us = true) /\
  (detail.is_integral Ts = true -> detail.is_integral Us = true) /\
  (detail.is_same_floating_point T Ts = true ->
   detail.is_same_floating_point T Us = true).
Proof.
  intros Hincl.
  unfold detail.is_same, detail.is_convertible_to, detail.is_floating_point,
    detail.is_integral, detail.is_same_floating_point.
  repeat split; try now apply conjunction_v_pack_incl.
  rewrite !andb_true_iff. intros [Hs Hf].
  split; eapply conjunction_v_pack_incl; eassumption.
Qed.

Lemma predicates_hold_on_sub_pack_witness :
  (forall U, In U [cpp_double; cpp_double; cpp_double] -> In U [cpp_double]) /\
  detail.is_same_floating_point cpp_double [cpp_double] = true /\
  detail.is_same_floating_point cpp_double [cpp_double; cpp_double; cpp_double]
  = true.
Proof.
  assert (forall U, In U [cpp_double; cpp_double; cpp_double] ->
                    In U [cpp_double]) as Hincl.
  { intros U HU. simpl in *. tauto. }
  assert (detail.is_same_floating_point cpp_double [cpp_double] = true) as H1
    by reflexivity.
  split; [exact Hincl|]. split; [exact H1|].
  destruct (predicates_hold_on_sub_pack sample cpp_double [cpp_double]
              [cpp_double; cpp_double; cpp_double] Hincl) as (_ & _ & _ & _ & H).
  exact (H H1).
Defined.

(** X3: over a pack that is not empty, [is_same_floating_point<T, Ts...>()]
    is true exactly when [T] is a floating-point type and every candidate is
    [T]; it then agrees with the check that also inspects [T]. *)
Theorem is_same_floating_point_nonempty (T : cpp_type) (Ts : list cpp_type) :
  Ts <> [] ->
  (detail.is_same_floating_point T Ts = true <->
   floating_point_type T /\ Forall (fun U => U = T) Ts) /\
  detail.is_same_floating_point T Ts =
    detail.is_same T Ts && detail.is_floating_point (T :: Ts).
Proof.
  intros Hne. destruct Ts as [|U Ts]; [congruence|].
  unfold detail.is_same_floating_point, detail.is_same,
    detail.is_floating_point.
  cbn [map].
  rewrite !conjunction_v_cons. split.
  - rewrite !andb_true_iff, !conjunction_v_pack_true, is_same_true,
      Forall_cons, !is_floating_point_type.
    split.
    + intros [[-> Hs] [Hf _]]. split; [exact Hf|]. split; [reflexivity|].
      eapply Forall_impl; [exact Hs|]. intros V HV. symmetry.
      now apply is_same_true.
    + intros [Hf [-> Hs]]. repeat split; trivial.
      * eapply Forall_impl; [exact Hs|]. intros V ->. now apply is_same_true.
      * eapply Forall_impl; [exact Hs|]. intros V ->.
        now apply is_floating_point_type.
  - destruct (std.is_same T U) eqn:HTU; [|reflexivity].
    apply is_same_true in HTU as ->.
    destruct (std.is_floating_point U);
      rewrite ?andb_true_l, ?andb_false_l, ?andb_false_r; reflexivity.
Qed.

Lemma is_same_floating_point_nonempty_witness :
  [cpp_double; cpp_double] <> [] /\
  (detail.is_same_floating_point cpp_double [cpp_double; cpp_double] = true <->
   floating_point_type cpp_double /\
   Forall (fun U => U = cpp_double) [cpp_double; cpp_double]).
Proof.
  assert ([cpp_double; cpp_double] <> []) as Hne by discriminate.
  split; [exact Hne|].
  exact (proj1 (is_same_floating_point_nonempty cpp_double
                  [cpp_double; cpp_double] Hne)).
Defined.

(** X4: the reference type and the first candidate can trade places without
    changing the result of [is_same] or of [is_same_floating_point]. *)
Theorem reference_and_candidate_swap (T U : cpp_type) (Ts : list cpp_type) :
  detail.is_same T (U :: Ts) = detail.is_same U (T :: Ts) /\
  detail.is_same_floating_point T (U :: Ts) =
    detail.is_same_floating_point U (T :: Ts).
Proof.
  unfold detail.is_same, detail.is_same_floating_point.
  cbn [map].
  rewrite !conjunction_v_cons.
  destruct (decide (T = U)) as [->|Hne]; [split; reflexivity|].
  assert (std.is_same T U = false) as -> by now apply is_same_false.
  assert (std.is_same U T = false) as ->
    by (apply is_same_false; congruence).
  split; reflexivity.
Qed.

(** X5: a pack passes both [is_floating_point] and [is_integral] only when
    it is empty. *)
Theorem floating_point_and_integral_only_empty (Ts : list cpp_type) :
  detail.is_floating_point Ts && detail.is_integral Ts = bool_decide (Ts = []).
Proof.
  destruct Ts as [|X Ts]; [reflexivity|].
  unfold detail.is_floating_point, detail.is_integral.
  cbn [map].
  rewrite !conjunction_v_cons.
  rewrite bool_decide_eq_false_2 by discriminate.
  destruct (std.is_integral X) eqn:Hi.
  - now rewrite (integral_not_floating_point X Hi).
  - simpl. apply andb_false_r.
Qed.

(** ** Candidates outside the arithmetic types, and qualifiers *)

Lemma compound_no_category (T : cpp_type) :
  (forall q f, T <> Fundamental q f) ->
  std.is_floating_point T = false /\ std.is_integral T = false.
Proof.
  intros HT. destruct T as [q f| | | | |? [] ?];
    try (split; reflexivity).
  now destruct (HT q f).
Qed.

Lemma primary_category_remove_const (T : cpp_type) :
  std.primary_category (remove_const T) = std.primary_category T.
Proof. now destruct T as [| | | | |? [] ?]. Qed.

(** X6: a pointer, reference, array, class, union or enumeration among the
    candidates makes [is_floating_point], [is_integral] and
    [is_same_floating_point] false: a reference to [double] is not a
    floating-point type and an enumeration is not an integral type. *)
Theorem compound_candidate_rejected (R T : cpp_type) (Ts : list cpp_type) :
  In T Ts -> (forall q f, T <> Fundamental q f) ->
  detail.is_floating_point Ts = false /\
  detail.is_integral Ts = false /\
  detail.is_same_floating_point R Ts = false.
Proof.
  intros Hin HT. apply compound_no_category in HT as [Hf Hi].
  unfold detail.is_floating_point, detail.is_integral,
    detail.is_same_floating_point.
  split; [|split].
  - now apply conjunction_v_pack_false with (x := T).
  - now apply conjunction_v_pack_false with (x := T).
  - apply andb_false_intro2.
    now apply conjunction_v_pack_false with (x := T).
Qed.

Lemma compound_candidate_rejected_witness :
  In (LvalueReference cpp_double) [cpp_double; LvalueReference cpp_double] /\
  (forall q f, LvalueReference cpp_double <> Fundamental q f) /\
  detail.is_floating_point [cpp_double; LvalueReference cpp_double] = false /\
  detail.is_integral [cpp_double; LvalueReference cpp_double] = false /\
  detail.is_same_floating_point cpp_double
    [cpp_double; LvalueReference cpp_double] = false.
Proof.
  assert (In (LvalueReference cpp_double)
             [cpp_double; LvalueReference cpp_double]) as Hin
    by (right; left; reflexivity).
  assert (forall q f, LvalueReference cpp_double <> Fundamental q f) as HT
    by discriminate.
  split; [exact Hin|]. split; [exact HT|].
  exact (compound_candidate_rejected cpp_double (LvalueReference cpp_double)
           [cpp_double; LvalueReference cpp_double] Hin HT).
Defined.

(** X7: [is_floating_point] and [is_integral] do not see whether their
    candidates are const, whereas [is_same] tells two qualifications of one
    fundamental type apart. *)
Theorem qualifiers_matter_to_is_same_only (Ts : list cpp_type)
  (q q' : cv_qualifier) (f : fundamental) :
  detail.is_floating_point (map remove_const Ts) = detail.is_floating_point Ts /\
  detail.is_integral (map remove_const Ts) = detail.is_integral Ts /\
  detail.is_same (Fundamental q f) [Fundamental q' f] = bool_decide (q = q').
Proof.
  unfold detail.is_floating_point, detail.is_integral, detail.is_same.
  rewrite !map_map. repeat split.
  - f_equal. apply map_ext. intros T. unfold std.is_floating_point.
    now rewrite primary_category_remove_const.
  - f_equal. apply map_ext. intros T. unfold std.is_integral.
    now rewrite primary_category_remove_const.
  - simpl. unfold std.is_same. apply bool_decide_ext.
    split; [intros [= ->]; reflexivity | intros ->; reflexivity].
Qed.

(** X12: identity is the stronger check: when the target converts to
    itself, a pack accepted by [is_same] is accepted by [is_convertible_to]. *)
Theorem is_same_implies_is_convertible_to (E : environment) (U : cpp_type)
  (Ts : list cpp_type) :
  convertible E U U = true ->
  detail.is_same U Ts = true -> detail.is_convertible_to E U Ts = true.
Proof.
  unfold detail.is_same, detail.is_convertible_to, std.is_convertible.
  rewrite !conjunction_v_pack_true. intros HU Hs.
  eapply Forall_impl; [exact Hs|]. intros T HT.
  apply is_same_true in HT as <-. exact HU.
Qed.

Lemma is_same_implies_is_convertible_to_witness :
  convertible sample vec_2d_double vec_2d_double = true /\
  detail.is_same vec_2d_double [vec_2d_double; vec_2d_double] = true /\
  detail.is_convertible_to sample vec_2d_double [vec_2d_double; vec_2d_double]
  = true.
Proof.
  assert (convertible sample vec_2d_double vec_2d_double = true) as HU
    by reflexivity.
  assert (detail.is_same vec_2d_double [vec_2d_double; vec_2d_double] = true)
    as Hs by reflexivity.
  split; [exact HU|]. split; [exact Hs|].
  exact (is_same_implies_is_convertible_to sample vec_2d_double
           [vec_2d_double; vec_2d_double] HU Hs).
Defined.

(** ** Where the projections fail *)

(** X8: [iterator_vec_base_type] yields [C] exactly when the element type
    of the iterator is a class or union that declares [C] as its member
    [value_type]; over scalars, pointers, references, arrays and
    enumerations it is a substitution failure. *)
Theorem iterator_vec_base_type_of_class (E : environment)
  (Iterator C : cpp_type) :
  detail.iterator_vec_base_type E Iterator = Some C <->
  exists q k name,
    detail.iterator_value_type E Iterator = Some (Named q k name) /\
    k <> EnumKind /\ member_type E name "value_type" = Some C.
Proof.
  unfold detail.iterator_vec_base_type. split.
  - destruct (detail.iterator_value_type E Iterator) as [V|]; [|discriminate].
    destruct V as [| | | | |q k name]; try discriminate.
    destruct k; try discriminate; intros H;
      [exists q, ClassKind, name | exists q, UnionKind, name];
      (split; [reflexivity|]; split; [discriminate|exact H]).
  - intros (q & k & name & -> & Hk & HC). now destruct k.
Qed.

(** X11: without a specialization in the program, [iterator_value_type]
    names no type for an argument that is neither a pointer nor a class or
    union with all five iterator member types: scalars, references, arrays
    and enumerations fail, and so does a class that lacks any one of
    [difference_type], [value_type], [pointer], [reference] and
    [iterator_category], even when it declares [value_type]. *)
Theorem iterator_value_type_fails (E : environment) (Iterator : cpp_type) :
  traits_specialization E Iterator = None ->
  (forall q U, Iterator <> Pointer q U) ->
  (forall q k C, Iterator = Named q k C ->
     k = EnumKind \/
     exists n, In n ["difference_type"; "value_type"; "pointer"; "reference";
                     "iterator_category"] /\
               member_type E C n = None) ->
  detail.iterator_value_type E Iterator = None.
Proof.
  intros Hs Hptr Hmiss.
  destruct (detail.iterator_value_type E Iterator) as [V|] eqn:HV;
    [exfalso|reflexivity].
  apply iterator_value_type_declared in HV.
  destruct HV as [It V Hs' | V _ _ _ | V T _ _ _
                 | q k C V D P R G _ Hk HD HV HP HR HG].
  - congruence.
  - now apply (Hptr unqualified V).
  - now apply (Hptr unqualified T).
  - destruct (Hmiss q k C eq_refl) as [->|(n & Hn & HN)]; [now apply Hk|].
    simpl in Hn.
    repeat (destruct Hn as [<-|Hn]; [congruence|]). destruct Hn.
Qed.

Lemma iterator_value_type_fails_witness :
  traits_specialization sample vec_2d_double = None /\
  member_type sample "cuspatial::vec_2d<double>" "value_type" = Some cpp_double /\
  member_type sample "cuspatial::vec_2d<double>" "reference" = None /\
  detail.iterator_value_type sample vec_2d_double = None.
Proof.
  split; [reflexivity|]. split; [reflexivity|]. split; [reflexivity|].
  apply (iterator_value_type_fails sample vec_2d_double eq_refl).
  - discriminate.
  - intros q k C [= <- <- <-]. right. exists "reference".
    split; [simpl; tauto | reflexivity].
Defined.



(** X10: through a pointer to a class or union, [iterator_vec_base_type]
    is the member [value_type] of that class whatever the qualification of
    the pointee; through a pointer to an enumeration it fails. *)
Theorem pointer_iterator_vec_base_type (E : environment) (q : cv_qualifier)
  (k : named_kind) (name : string) :
  traits_specialization E (Pointer unqualified (Named q k name)) = None ->
  detail.iterator_vec_base_type E (Pointer unqualified (Named q k name)) =
    if bool_decide (k = EnumKind) then None
    else member_type E name "value_type".
Proof.
  intros Hs. unfold detail.iterator_vec_base_type, detail.iterator_value_type,
    std.iterator_traits_value_type. rewrite Hs. now destruct k.
Qed.

Lemma pointer_iterator_vec_base_type_witness :
  traits_specialization sample
    (Pointer unqualified (Named const_volatile ClassKind "cuspatial::vec_2d<float>"))
  = None /\
  detail.iterator_vec_base_type sample
    (Pointer unqualified (Named const_volatile ClassKind "cuspatial::vec_2d<float>"))
  = Some cpp_float.
Proof.
  split; [reflexivity|].
  exact (pointer_iterator_vec_base_type sample const_volatile ClassKind
           "cuspatial::vec_2d<float>" eq_refl).
Defined.
